(** * rest_framework.exceptions: the error model and its normalisation

    A shallow embedding of [rest_framework/exceptions.py].  Python values
    are an inductive type, a failed [assert] and the other exceptions a
    call can raise are the [Raise] results of an error monad, and the
    process-wide [api_settings] object is an explicit record handed to
    every function that reads it.  Integers and [math.ceil] follow
    Python 3. *)

From Stdlib Require Import List String Ascii ZArith Bool Lia.
From Stdlib Require Import DecimalString SpecFloat.
Import ListNotations.

Local Open Scope string_scope.
Local Open Scope Z_scope.

(** ** Python values *)

(** The values that are not containers.  [ALazy s] is a deferred
    translation string ([ugettext_lazy]) that resolves to the text [s]. *)
Inductive atom : Type :=
| ANone
| AStr (s : string)
| ALazy (s : string)
| AInt (z : Z).

Unset Elimination Schemes.

(** A dict keeps its items in insertion order; its keys are hashable
    values, here the atoms. *)
Inductive pyval : Type :=
| Leaf (a : atom)
| VList (l : list pyval)
| VTuple (l : list pyval)
| VDict (d : list (atom * pyval)).

Set Elimination Schemes.

(** Induction over nested values: the hypotheses for the containers speak
    about every element. *)
Definition pyval_forall_ind (P : pyval -> Prop)
  (HLeaf : forall a, P (Leaf a))
  (HList : forall l, Forall P l -> P (VList l))
  (HTuple : forall l, Forall P l -> P (VTuple l))
  (HDict : forall d, Forall (fun kv => P (snd kv)) d -> P (VDict d)) :
  forall v, P v :=
  fix go (v : pyval) : P v :=
    match v with
    | Leaf a => HLeaf a
    | VList l =>
        HList l ((fix elems (l : list pyval) : Forall P l :=
                    match l with
                    | [] => Forall_nil P
                    | x :: r => Forall_cons x (go x) (elems r)
                    end) l)
    | VTuple l =>
        HTuple l ((fix elems (l : list pyval) : Forall P l :=
                     match l with
                     | [] => Forall_nil P
                     | x :: r => Forall_cons x (go x) (elems r)
                     end) l)
    | VDict d =>
        HDict d ((fix items (d : list (atom * pyval))
                    : Forall (fun kv => P (snd kv)) d :=
                    match d with
                    | [] => Forall_nil _
                    | kv :: r => Forall_cons kv (go (snd kv)) (items r)
                    end) d)
    end.

Definition None_ : pyval := Leaf ANone.
Definition str (s : string) : pyval := Leaf (AStr s).

(** [x is None] *)
Definition is_None (v : pyval) : bool :=
  match v with Leaf ANone => true | _ => false end.

Definition isinstance_list (v : pyval) : bool :=
  match v with VList _ => true | _ => false end.

Definition isinstance_tuple (v : pyval) : bool :=
  match v with VTuple _ => true | _ => false end.

Definition isinstance_dict (v : pyval) : bool :=
  match v with VDict _ => true | _ => false end.


(** ** Text *)

(** [str(n)] for an integer. *)
Definition str_of_int (z : Z) : string :=
  NilZero.string_of_int (Z.to_int z).

(** [django.utils.encoding.force_text] on a value that is not a
    container: text is returned as it is, a deferred string is
    resolved, anything else goes through [six.text_type]. *)
Definition force_text (a : atom) : string :=
  match a with
  | ANone => "None"
  | AStr s => s
  | ALazy s => s
  | AInt z => str_of_int z
  end.

(** ** Dictionaries *)

(** Equality of two keys, as [__hash__] and [__eq__] decide it: a
    deferred string compares by its resolved text. *)
Definition key_eqb (a b : atom) : bool :=
  match a, b with
  | ANone, ANone => true
  | (AStr s | ALazy s), (AStr t | ALazy t) => (s =? t)%string
  | AInt x, AInt y => x =? y
  | _, _ => false
  end.

Section Dict.
Context {V : Type}.

(** [d[k] = v]: an equal key keeps its place and its key object. *)
Fixpoint dict_setitem (d : list (atom * V)) (k : atom) (v : V)
  : list (atom * V) :=
  match d with
  | [] => [(k, v)]
  | (k', v') :: d' =>
      if key_eqb k' k then (k', v) :: d'
      else (k', v') :: dict_setitem d' k v
  end.

(** [dict(pairs)] *)
Definition dict (pairs : list (atom * V)) : list (atom * V) :=
  fold_left (fun d kv => dict_setitem d (fst kv) (snd kv)) pairs [].
End Dict.

Definition key_in (k : atom) (ks : list atom) : bool :=
  existsb (key_eqb k) ks.

Fixpoint keys_unique (ks : list atom) : bool :=
  match ks with
  | [] => true
  | k :: r => negb (key_in k r) && keys_unique r
  end.

(** A value is well formed when no dict in it holds two equal keys. *)
Fixpoint wf (v : pyval) : bool :=
  match v with
  | Leaf _ => true
  | VList l | VTuple l => forallb wf l
  | VDict d =>
      keys_unique (map fst d) && forallb (fun kv => wf (snd kv)) d
  end.

(** ** Recursive normalisation *)

Fixpoint _force_text_recursive (data : pyval) : pyval :=
  match data with
  | VList l => VList (map _force_text_recursive l)
  | VTuple l => VTuple (map _force_text_recursive l)
  | VDict d =>
      VDict (dict (map (fun kv => (fst kv, _force_text_recursive (snd kv))) d))
  | Leaf a => Leaf (AStr (force_text a))
  end.

(** ** Exceptions raised while an error object is being built *)

Inductive exn : Type :=
| AssertionError (msg : string)
| KeyError (key : string)
| ValueError (msg : string)
| OverflowError (msg : string).

Inductive result (A : Type) : Type :=
| Ok (a : A)
| Raise (e : exn).

Arguments Ok {A} a.
Arguments Raise {A} e.

Definition bind {A B : Type} (r : result A) (k : A -> result B) : result B :=
  match r with
  | Ok a => k a
  | Raise e => Raise e
  end.

Notation "x <- e ;; k" := (bind e (fun x => k))
  (at level 61, e at next level, right associativity).
Notation "e ;;; k" := (bind e (fun _ => k))
  (at level 61, right associativity).

(** [assert cond, msg] *)
Definition py_assert (cond : bool) (msg : string) : result unit :=
  if cond then Ok tt else Raise (AssertionError msg).


(** ** Formatting *)

(** The one-character string holding a double quote. *)
Definition dquote : string := String (ascii_of_nat 34) "".

Fixpoint lookup (name : string) (kwargs : list (string * string))
  : option string :=
  match kwargs with
  | [] => None
  | (k, v) :: r => if (k =? name)%string then Some v else lookup name r
  end.

(** [template.format(name=value, ...)] for templates whose replacement fields
    are plain names.  [field] is the name read so far while the scan is
    inside braces.  Doubled braces and format specifications, which no
    template of this module uses, are not modelled. *)
Fixpoint format_from (template : string) (field : option string)
  (kwargs : list (string * string)) : result string :=
  match template with
  | EmptyString =>
      match field with
      | None => Ok ""
      | Some _ => Raise (ValueError "expected '}' before end of string")
      end
  | String c rest =>
      match field with
      | None =>
          if (c =? "{")%char then format_from rest (Some "") kwargs
          else if (c =? "}")%char then
            Raise (ValueError "Single '}' encountered in format string")
          else
            r <- format_from rest None kwargs ;;
            Ok (String c r)
      | Some name =>
          if (c =? "}")%char then
            match lookup name kwargs with
            | Some v =>
                r <- format_from rest None kwargs ;;
                Ok (v ++ r)
            | None => Raise (KeyError name)
            end
          else format_from rest (Some (name ++ String c "")) kwargs
      end
  end.

Definition format (template : string) (kwargs : list (string * string))
  : result string :=
  format_from template None kwargs.

(** [django.utils.translation.ungettext] with no catalogue active: the
    singular form for exactly one, the plural form otherwise. *)
Definition ungettext (singular plural : string) (number : Z) : string :=
  if number =? 1 then singular else plural.

(** ** Numbers *)

(** An [int], or a [float] given by its IEEE 754 binary64 value. *)
Inductive number : Type :=
| NInt (z : Z)
| NFloat (f : spec_float).

(** The least integer not below [n * 2 ^ e]. *)
Definition ceil_scaled (n e : Z) : Z :=
  if 0 <=? e then n * 2 ^ e else - ((- n) / 2 ^ (- e)).

(** [math.ceil] *)
Definition math_ceil (x : number) : result Z :=
  match x with
  | NInt z => Ok z
  | NFloat (S754_zero _) => Ok 0
  | NFloat (S754_infinity _) =>
      Raise (OverflowError "cannot convert float infinity to integer")
  | NFloat S754_nan =>
      Raise (ValueError "cannot convert float NaN to integer")
  | NFloat (S754_finite s m e) =>
      Ok (ceil_scaled (if s then Z.neg m else Z.pos m) e)
  end.

(** ** Settings *)

Record api_settings : Type := {
  REQUIRE_ERROR_CODES : bool;
  ERROR_BUILDER : pyval -> pyval -> pyval
}.

(** Modelled from the spec: the status constants of
    [rest_framework.status], which the exception classes read. *)
Module status.
Definition HTTP_400_BAD_REQUEST : Z := 400.
Definition HTTP_401_UNAUTHORIZED : Z := 401.
Definition HTTP_403_FORBIDDEN : Z := 403.
Definition HTTP_404_NOT_FOUND : Z := 404.
Definition HTTP_405_METHOD_NOT_ALLOWED : Z := 405.
Definition HTTP_406_NOT_ACCEPTABLE : Z := 406.
Definition HTTP_415_UNSUPPORTED_MEDIA_TYPE : Z := 415.
Definition HTTP_429_TOO_MANY_REQUESTS : Z := 429.
Definition HTTP_500_INTERNAL_SERVER_ERROR : Z := 500.
End status.

(** ** The exception classes *)

(** [x is None] for a value that is not a container. *)
Definition atom_is_None (a : atom) : bool :=
  match a with ANone => true | _ => false end.


Module APIException.
Record t : Type := { detail : string }.

Definition status_code : Z := status.HTTP_500_INTERNAL_SERVER_ERROR.
Definition default_detail : atom := ALazy "A server error occurred.".

Definition __init__ (detail : atom) : t :=
  if negb (atom_is_None detail) then {| detail := force_text detail |}
  else {| detail := force_text default_detail |}.
End APIException.

(** The messages of the three assertions. *)
Definition compound_error_code_message : string :=
  "The `error_code` argument must not be set for compound "
  ++ "errors. Strict checking of error_code is enabled with "
  ++ "REQUIRE_ERROR_CODES settings key.".

Definition missing_error_code_message : string :=
  "The `error_code` argument is required for single errors. Strict "
  ++ "checking of error_code is enabled with REQUIRE_ERROR_CODES "
  ++ "settings key.".

Definition not_single_message : string :=
  "Use `build_error` only with single error messages. Dictionaries and "
  ++ "lists should be passed directly to ValidationError.".

Definition default_error_builder (detail error_code : pyval) : pyval :=
  VTuple [detail; error_code].

Definition build_error (settings : api_settings)
  (detail error_code : pyval) : result pyval :=
  py_assert (negb (isinstance_dict detail) && negb (isinstance_list detail))
    not_single_message ;;;
  (if REQUIRE_ERROR_CODES settings then
     py_assert (negb (is_None error_code)) missing_error_code_message
   else Ok tt) ;;;
  Ok (ERROR_BUILDER settings detail error_code).



Module ValidationError.
Record t : Type := { detail : pyval; error_code : pyval }.

Definition status_code : Z := status.HTTP_400_BAD_REQUEST.

Definition __init__ (settings : api_settings)
  (detail error_code : pyval) : result t :=
  detail <-
    (if negb (isinstance_dict detail) && negb (isinstance_list detail) then
       entry <- build_error settings detail error_code ;;
       Ok (VList [entry])
     else
       (if REQUIRE_ERROR_CODES settings then
          py_assert (is_None error_code) compound_error_code_message
        else Ok tt) ;;;
       Ok detail) ;;
  Ok {| detail := _force_text_recursive detail; error_code := error_code |}.
End ValidationError.

Module MethodNotAllowed.
Record t : Type := { detail : string }.

Definition status_code : Z := status.HTTP_405_METHOD_NOT_ALLOWED.
Definition default_detail : atom :=
  ALazy ("Method " ++ dquote ++ "{method}" ++ dquote ++ " not allowed.").

Definition __init__ (method : atom) (detail : atom) : result t :=
  if negb (atom_is_None detail) then Ok {| detail := force_text detail |}
  else
    text <- format (force_text default_detail)
              [("method", force_text method)] ;;
    Ok {| detail := text |}.
End MethodNotAllowed.

Module Throttled.
Record t : Type := { detail : string; wait : option Z }.

Definition status_code : Z := status.HTTP_429_TOO_MANY_REQUESTS.
Definition default_detail : atom := ALazy "Request was throttled.".
Definition extra_detail_singular : string :=
  "Expected available in {wait} second.".
Definition extra_detail_plural : string :=
  "Expected available in {wait} seconds.".

Definition __init__ (wait : option number) (detail : atom) : result t :=
  let detail :=
    if negb (atom_is_None detail) then force_text detail
    else force_text default_detail in
  match wait with
  | None => Ok {| detail := detail; wait := None |}
  | Some w =>
      n <- math_ceil w ;;
      singular <- format extra_detail_singular [("wait", str_of_int n)] ;;
      plural <- format extra_detail_plural [("wait", str_of_int n)] ;;
      Ok {| detail :=
              detail ++ (" " ++ force_text (AStr (ungettext singular plural n)));
            wait := Some n |}
  end.
End Throttled.

(** The two configurations the properties below are stated for. *)
Definition lenient_settings : api_settings :=
  {| REQUIRE_ERROR_CODES := false; ERROR_BUILDER := default_error_builder |}.

Definition strict_settings : api_settings :=
  {| REQUIRE_ERROR_CODES := true; ERROR_BUILDER := default_error_builder |}.

(** [1.4] as a binary64 float: [6305039478318694 * 2 ^ -52]. *)
Definition float_1_4 : spec_float :=
  S754_finite false 6305039478318694 (-52).


(** A nested detail: a dict with a deferred key and an integer key, a
    list holding a deferred text and a tuple, and an empty list. *)
Definition nested_detail : pyval :=
  VDict [(ALazy "name",
          VList [Leaf (ALazy "Too long."); VTuple [str "a"; Leaf (ALazy "b")]]);
         (AInt 7, VList []);
         (AStr "age", VDict [(AStr "min", str "Too young.")])].

(** The message [Throttled] starts from: the explicit detail, or the
    default message when there is none. *)
Definition throttled_base (detail : atom) : string :=
  if atom_is_None detail then force_text Throttled.default_detail
  else force_text detail.

(** The clause appended for a wait of [n] seconds. *)
Definition wait_clause (n : Z) : string :=
  "Expected available in " ++ str_of_int n
  ++ (if n =? 1 then " second." else " seconds.").

(** [s.endswith(suffix)] *)
Definition endswith (s suffix : string) : bool :=
  let n := String.length s in
  let m := String.length suffix in
  (m <=? n)%nat && (substring (n - m) m s =? suffix)%string.

(** ** Observations of a nested value *)

(** The containers of a value with the leaves erased: container kinds,
    lengths, order and dict keys. *)
Unset Elimination Schemes.

Inductive shape : Type :=
| SLeaf
| SList (l : list shape)
| STuple (l : list shape)
| SDict (d : list (atom * shape)).

Set Elimination Schemes.

Fixpoint shape_of (v : pyval) : shape :=
  match v with
  | Leaf _ => SLeaf
  | VList l => SList (map shape_of l)
  | VTuple l => STuple (map shape_of l)
  | VDict d => SDict (map (fun kv => (fst kv, shape_of (snd kv))) d)
  end.

(** The leaves of a value, left to right. *)
Fixpoint leaves (v : pyval) : list atom :=
  match v with
  | Leaf a => [a]
  | VList l | VTuple l => flat_map leaves l
  | VDict d => flat_map (fun kv => leaves (snd kv)) d
  end.

(** The leaf a leaf of the input becomes. *)
Definition resolved (a : atom) : atom := AStr (force_text a).

(** [list(d.keys())] and [list(d.values())], empty for a value that is
    not a dict. *)
Definition dict_keys (v : pyval) : list atom :=
  match v with VDict d => map fst d | _ => [] end.

Definition dict_values (v : pyval) : list pyval :=
  match v with VDict d => map snd d | _ => [] end.

(** [c] is the least integer not below [n * 2 ^ e], with both sides
    scaled to integers. *)
Definition is_ceiling (n e c : Z) : Prop :=
  (c - 1) * 2 ^ Z.max 0 (- e) < n * 2 ^ Z.max 0 e <= c * 2 ^ Z.max 0 (- e).

(** The integer a finite float's sign and mantissa stand for. *)
Definition signed (s : bool) (m : positive) : Z :=
  if s then Z.neg m else Z.pos m.

(** ** The classes that inherit their constructor *)

(** What the inherited constructor and a handler read of a class: its
    [status_code] and its [default_detail]. *)
Record exception_class : Type := {
  class_status_code : Z;
  class_default_detail : atom
}.

(** [APIException.__init__] as an instance of class [cls] runs it:
    [self.default_detail] is the attribute of that class. *)
Definition inherited__init__ (cls : exception_class) (detail : atom)
  : APIException.t :=
  if negb (atom_is_None detail)
  then {| APIException.detail := force_text detail |}
  else {| APIException.detail := force_text (class_default_detail cls) |}.

(** [APIException.__str__] *)
Definition APIException__str__ (self : APIException.t) : string :=
  APIException.detail self.

Module NotAcceptable.
Record t (R : Type) : Type := { detail : string; available_renderers : R }.

Arguments detail {R} _.
Arguments available_renderers {R} _.

Definition status_code : Z := status.HTTP_406_NOT_ACCEPTABLE.
Definition default_detail : atom :=
  ALazy "Could not satisfy the request Accept header.".

Definition __init__ {R : Type} (detail : atom) (available_renderers : R)
  : t R :=
  let detail :=
    if negb (atom_is_None detail) then force_text detail
    else force_text default_detail in
  {| detail := detail; available_renderers := available_renderers |}.
End NotAcceptable.

Module UnsupportedMediaType.
Record t : Type := { detail : string }.

Definition status_code : Z := status.HTTP_415_UNSUPPORTED_MEDIA_TYPE.
Definition default_detail : atom :=
  ALazy ("Unsupported media type " ++ dquote ++ "{media_type}" ++ dquote
         ++ " in request.").

Definition __init__ (media_type : atom) (detail : atom) : result t :=
  if negb (atom_is_None detail) then Ok {| detail := force_text detail |}
  else
    text <- format (force_text default_detail)
              [("media_type", force_text media_type)] ;;
    Ok {| detail := text |}.
End UnsupportedMediaType.

(** The classes with a constructor of their own, as the inherited
    constructor would see them. *)
Definition NotAcceptable_class : exception_class :=
  {| class_status_code := NotAcceptable.status_code;
     class_default_detail := NotAcceptable.default_detail |}.

Definition MethodNotAllowed_class : exception_class :=
  {| class_status_code := MethodNotAllowed.status_code;
     class_default_detail := MethodNotAllowed.default_detail |}.

Definition UnsupportedMediaType_class : exception_class :=
  {| class_status_code := UnsupportedMediaType.status_code;
     class_default_detail := UnsupportedMediaType.default_detail |}.

Definition Throttled_class : exception_class :=
  {| class_status_code := Throttled.status_code;
     class_default_detail := Throttled.default_detail |}.

(** Every leaf is a plain string. *)
Fixpoint all_text (v : pyval) : bool :=
  match v with
  | Leaf (AStr _) => true
  | Leaf _ => false
  | VList l | VTuple l => forallb all_text l
  | VDict d => forallb (fun kv => all_text (snd kv)) d
  end.

(** [x * 2 ^ e] lies in the interval from 0, excluded, to 1, included. *)
Definition in_first_second (n e : Z) : Prop :=
  0 < n * 2 ^ Z.max 0 e <= 2 ^ Z.max 0 (- e).

(** * Properties *)

(** ** Dictionaries built from the items of a dictionary *)

Lemma key_eqb_sym (a b : atom) : key_eqb a b = key_eqb b a.
Proof.
  destruct a, b; simpl; trivial; try apply String.eqb_sym; apply Z.eqb_sym.
Qed.

Section DictFacts.
Context {V : Type}.
Implicit Types (d acc : list (atom * V)) (k : atom) (v : V).

Lemma dict_setitem_fresh d k v :
  key_in k (map fst d) = false -> dict_setitem d k v = (d ++ [(k, v)])%list.
Proof.
  induction d as [|[k' v'] d IH]; simpl; intros H; trivial.
  apply orb_false_elim in H as [Hk Hd].
  rewrite key_eqb_sym, Hk, IH; trivial.
Qed.

Lemma keys_unique_middle (xs ys : list atom) k :
  keys_unique (xs ++ k :: ys)%list = true -> key_in k xs = false.
Proof.
  induction xs as [|x xs IH]; simpl; intros H; trivial.
  apply andb_true_iff in H as [Hx Hr].
  apply negb_true_iff in Hx. unfold key_in in Hx.
  rewrite existsb_app in Hx. apply orb_false_elim in Hx as [_ Hx].
  simpl in Hx. apply orb_false_elim in Hx as [Hx _].
  rewrite key_eqb_sym, Hx. simpl. fold (key_in k xs). auto.
Qed.

Lemma dict_onto acc d :
  keys_unique (map fst (acc ++ d)%list) = true ->
  fold_left (fun d kv => dict_setitem d (fst kv) (snd kv)) d acc
  = (acc ++ d)%list.
Proof.
  revert acc. induction d as [|[k v] d IH]; intros acc H; simpl.
  - now rewrite app_nil_r.
  - rewrite dict_setitem_fresh.
    + rewrite IH; rewrite <- app_assoc; trivial.
    + rewrite map_app in H. simpl in H.
      now apply keys_unique_middle in H.
Qed.

(** Rebuilding a dict from items whose keys are pairwise different
    gives those items back, in their order. *)
Lemma dict_of_items d :
  keys_unique (map fst d) = true -> dict d = d.
Proof. intros H. unfold dict. now rewrite dict_onto. Qed.
End DictFacts.

Lemma map_value_keys {A B : Type} (f : B -> A) (d : list (atom * B)) :
  map fst (map (fun kv => (fst kv, f (snd kv))) d) = map fst d.
Proof. rewrite map_map. now apply map_ext. Qed.

Lemma force_text_recursive_dict (d : list (atom * pyval)) :
  keys_unique (map fst d) = true ->
  _force_text_recursive (VDict d) =
  VDict (map (fun kv => (fst kv, _force_text_recursive (snd kv))) d).
Proof.
  intros H. simpl. rewrite dict_of_items; trivial.
  now rewrite map_value_keys.
Qed.

(** ** Normalisation keeps the containers and resolves the leaves *)

Lemma forallb_Forall {A : Type} (p : A -> bool) (l : list A) :
  forallb p l = true -> Forall (fun x => p x = true) l.
Proof. rewrite forallb_forall, Forall_forall. auto. Qed.

Lemma force_text_recursive_shape (v : pyval) :
  wf v = true -> shape_of (_force_text_recursive v) = shape_of v.
Proof.
  induction v as [a|l IH|l IH|d IH] using pyval_forall_ind; intros Hwf.
  - reflexivity.
  - simpl in *. f_equal. rewrite map_map.
    apply forallb_Forall in Hwf.
    induction IH as [|x r Hx _ IHr]; simpl; trivial.
    inversion Hwf; subst. now rewrite Hx, IHr.
  - simpl in *. f_equal. rewrite map_map.
    apply forallb_Forall in Hwf.
    induction IH as [|x r Hx _ IHr]; simpl; trivial.
    inversion Hwf; subst. now rewrite Hx, IHr.
  - simpl in Hwf. apply andb_true_iff in Hwf as [Hk Hv].
    rewrite force_text_recursive_dict by trivial.
    simpl. f_equal. rewrite map_map. simpl.
    apply forallb_Forall in Hv. clear Hk.
    induction IH as [|x r Hx _ IHr]; simpl; trivial.
    inversion Hv; subst. now rewrite Hx, IHr.
Qed.

Lemma force_text_recursive_leaves (v : pyval) :
  wf v = true ->
  leaves (_force_text_recursive v) = map resolved (leaves v).
Proof.
  induction v as [a|l IH|l IH|d IH] using pyval_forall_ind; intros Hwf.
  - reflexivity.
  - simpl in *. apply forallb_Forall in Hwf.
    induction IH as [|x r Hx _ IHr]; simpl; trivial.
    inversion Hwf; subst. now rewrite map_app, Hx, IHr.
  - simpl in *. apply forallb_Forall in Hwf.
    induction IH as [|x r Hx _ IHr]; simpl; trivial.
    inversion Hwf; subst. now rewrite map_app, Hx, IHr.
  - simpl in Hwf. apply andb_true_iff in Hwf as [Hk Hv].
    rewrite force_text_recursive_dict by trivial.
    simpl. apply forallb_Forall in Hv. clear Hk.
    induction IH as [|x r Hx _ IHr]; simpl; trivial.
    inversion Hv; subst. now rewrite map_app, Hx, IHr.
Qed.

(** ** Rounding up *)

Lemma ceil_scaled_is_ceiling (n e : Z) : is_ceiling n e (ceil_scaled n e).
Proof.
  unfold is_ceiling, ceil_scaled.
  destruct (Z.leb_spec 0 e) as [He|He].
  - rewrite (Z.max_l 0 (- e)), (Z.max_r 0 e) by lia.
    change (2 ^ 0) with 1. lia.
  - rewrite (Z.max_r 0 (- e)), (Z.max_l 0 e) by lia.
    change (2 ^ 0) with 1.
    assert (Hp : 0 < 2 ^ (- e)) by (apply Z.pow_pos_nonneg; lia).
    pose proof (Z.div_mod (- n) (2 ^ (- e)) ltac:(lia)) as Hdm.
    pose proof (Z.mod_pos_bound (- n) (2 ^ (- e)) Hp) as Hb.
    nia.
Qed.

(** ** The templates of [Throttled] *)

Lemma format_singular (v : string) :
  format Throttled.extra_detail_singular [("wait", v)]
  = Ok ("Expected available in " ++ v ++ " second.").
Proof. reflexivity. Qed.

Lemma format_plural (v : string) :
  format Throttled.extra_detail_plural [("wait", v)]
  = Ok ("Expected available in " ++ v ++ " seconds.").
Proof. reflexivity. Qed.

Lemma format_method (v : string) :
  format (force_text MethodNotAllowed.default_detail) [("method", v)]
  = Ok ("Method " ++ dquote ++ v ++ dquote ++ " not allowed.").
Proof. reflexivity. Qed.

(** ** ValidationError *)

(** What the constructor does with a list or a dict. *)
Lemma validation_error_compound settings detail error_code :
  isinstance_list detail || isinstance_dict detail = true ->
  ValidationError.__init__ settings detail error_code
  = if REQUIRE_ERROR_CODES settings && negb (is_None error_code)
    then Raise (AssertionError compound_error_code_message)
    else Ok {| ValidationError.detail := _force_text_recursive detail;
               ValidationError.error_code := error_code |}.
Proof.
  intros H. unfold ValidationError.__init__.
  destruct detail; try discriminate H; simpl;
    destruct (REQUIRE_ERROR_CODES settings); simpl; trivial;
    destruct (is_None error_code); reflexivity.
Qed.

(** What the constructor does with anything else. *)
Lemma validation_error_single settings detail error_code :
  isinstance_list detail || isinstance_dict detail = false ->
  ValidationError.__init__ settings detail error_code
  = (entry <- build_error settings detail error_code ;;
     Ok {| ValidationError.detail := VList [_force_text_recursive entry];
           ValidationError.error_code := error_code |}).
Proof.
  intros H. unfold ValidationError.__init__.
  destruct detail; try discriminate H; simpl;
    destruct (build_error settings _ error_code); reflexivity.
Qed.

(** C1, as the claim states it, fails: for the message ["x"] with no
    error code, under the default builder and without strict checking,
    [build_error] returns the pair [("x", None)], and the constructor
    stores a one-element list whose element is another value, the pair
    [("x", "None")]. *)
Lemma single_message_entry_is_normalised :
  build_error lenient_settings (str "x") None_ = Ok (VTuple [str "x"; None_])
  /\ exists e,
       ValidationError.__init__ lenient_settings (str "x") None_ = Ok e
       /\ ValidationError.detail e = VList [VTuple [str "x"; str "None"]]
       /\ ValidationError.detail e <> VList [VTuple [str "x"; None_]].
Proof.
  split; [reflexivity|].
  eexists. split; [reflexivity|]. split; [reflexivity|].
  simpl. discriminate.
Qed.

(** C1, amended: for every [detail] that is neither a list nor a dict,
    the constructor fails the way [build_error(detail, error_code)]
    fails, and otherwise stores a one-element list whose only element is
    the recursive text normalisation of the entry [build_error] returned;
    for a list or a dict, a construction that succeeds stores the
    normalisation of [detail] itself, whatever [error_code] was. *)
Theorem validation_error_wraps_single_message settings detail error_code :
  (isinstance_list detail || isinstance_dict detail = false ->
   ValidationError.__init__ settings detail error_code
   = (entry <- build_error settings detail error_code ;;
      Ok {| ValidationError.detail := VList [_force_text_recursive entry];
            ValidationError.error_code := error_code |}))
  /\ (isinstance_list detail || isinstance_dict detail = true ->
      forall e,
        ValidationError.__init__ settings detail error_code = Ok e ->
        ValidationError.detail e = _force_text_recursive detail).
Proof.
  split.
  - apply validation_error_single.
  - intros H e He. rewrite validation_error_compound in He by trivial.
    destruct (REQUIRE_ERROR_CODES settings && negb (is_None error_code));
      [discriminate|].
    now inversion He.
Qed.

Lemma validation_error_wraps_single_message_witness :
  ValidationError.__init__ strict_settings (Leaf (ALazy "x")) (str "required")
  = Ok {| ValidationError.detail := VList [VTuple [str "x"; str "required"]];
          ValidationError.error_code := str "required" |}
  /\ forall e,
       ValidationError.__init__ strict_settings (VList [str "x"]) None_ = Ok e ->
       ValidationError.detail e = VList [str "x"].
Proof.
  split.
  - exact (proj1 (validation_error_wraps_single_message
                    strict_settings (Leaf (ALazy "x")) (str "required"))
             eq_refl).
  - exact (proj2 (validation_error_wraps_single_message
                    strict_settings (VList [str "x"]) None_)
             eq_refl).
Defined.

(** C2: a list or dict [detail] that the constructor accepts is stored
    with its containers unchanged (lists stay lists and tuples stay
    tuples, with their lengths and order, dicts stay dicts with their
    keys in place) and with every leaf replaced, in place, by the text
    it resolves to. *)
Theorem validation_error_preserves_containers settings detail error_code :
  wf detail = true ->
  isinstance_list detail || isinstance_dict detail = true ->
  REQUIRE_ERROR_CODES settings && negb (is_None error_code) = false ->
  exists e,
    ValidationError.__init__ settings detail error_code = Ok e
    /\ shape_of (ValidationError.detail e) = shape_of detail
    /\ leaves (ValidationError.detail e) = map resolved (leaves detail).
Proof.
  intros Hwf Hc Hs. rewrite validation_error_compound, Hs by trivial.
  eexists. split; [reflexivity|]. simpl.
  split; [now apply force_text_recursive_shape
         |now apply force_text_recursive_leaves].
Qed.

Lemma validation_error_preserves_containers_witness :
  wf nested_detail = true
  /\ isinstance_list nested_detail || isinstance_dict nested_detail = true
  /\ REQUIRE_ERROR_CODES lenient_settings
     && negb (is_None (str "invalid")) = false
  /\ exists e,
    ValidationError.__init__ lenient_settings nested_detail (str "invalid")
    = Ok e
    /\ shape_of (ValidationError.detail e)
       = SDict [(ALazy "name", SList [SLeaf; STuple [SLeaf; SLeaf]]);
                (AInt 7, SList []);
                (AStr "age", SDict [(AStr "min", SLeaf)])]
    /\ leaves (ValidationError.detail e)
       = [AStr "Too long."; AStr "a"; AStr "b"; AStr "Too young."].
Proof.
  repeat (split; [reflexivity|]).
  exact (validation_error_preserves_containers
           lenient_settings nested_detail (str "invalid")
           eq_refl eq_refl eq_refl).
Defined.

(** C3: with a list or a dict as [detail] and an [error_code] that is
    not [None], the constructor fails with the assertion error exactly
    when REQUIRE_ERROR_CODES is on; when it is off the call succeeds and
    the stored detail is the normalisation of [detail] alone, the same
    as the one stored when no [error_code] is given. *)
Theorem validation_error_compound_error_code settings detail error_code :
  isinstance_list detail || isinstance_dict detail = true ->
  is_None error_code = false ->
  ((exists msg,
      ValidationError.__init__ settings detail error_code
      = Raise (AssertionError msg))
   <-> REQUIRE_ERROR_CODES settings = true)
  /\ (REQUIRE_ERROR_CODES settings = false ->
      ValidationError.__init__ settings detail error_code
      = Ok {| ValidationError.detail := _force_text_recursive detail;
              ValidationError.error_code := error_code |}
      /\ exists e0,
           ValidationError.__init__ settings detail None_ = Ok e0
           /\ ValidationError.detail e0 = _force_text_recursive detail).
Proof.
  intros Hc Hn.
  rewrite !validation_error_compound, Hn by trivial. simpl.
  destruct (REQUIRE_ERROR_CODES settings); simpl.
  - split; [|discriminate]. split; trivial. intros _. now eexists.
  - split.
    + split; [intros [msg H]|]; discriminate.
    + intros _. split; trivial. eexists. split; reflexivity.
Qed.

Lemma validation_error_compound_error_code_witness :
  ((exists msg,
      ValidationError.__init__ strict_settings
        (VDict [(AStr "name", VList [str "Too long."])]) (str "invalid")
      = Raise (AssertionError msg))
   <-> REQUIRE_ERROR_CODES strict_settings = true)
  /\ ValidationError.__init__ lenient_settings
       (VList [Leaf (ALazy "Too long.")]) (str "invalid")
     = Ok {| ValidationError.detail := VList [str "Too long."];
             ValidationError.error_code := str "invalid" |}.
Proof.
  split.
  - exact (proj1 (validation_error_compound_error_code strict_settings
                    (VDict [(AStr "name", VList [str "Too long."])])
                    (str "invalid") eq_refl eq_refl)).
  - exact (proj1 (proj2 (validation_error_compound_error_code
                           lenient_settings
                           (VList [Leaf (ALazy "Too long.")])
                           (str "invalid") eq_refl eq_refl)
                    eq_refl)).
Defined.

(** C10: normalising a well-formed dict gives a dict with the same keys,
    each the very key of the input (a deferred or integer key is not
    turned into text), in the same order, and with each value replaced
    by its normalisation. *)
Theorem force_text_recursive_keeps_keys (d : list (atom * pyval)) :
  wf (VDict d) = true ->
  isinstance_dict (_force_text_recursive (VDict d)) = true
  /\ dict_keys (_force_text_recursive (VDict d)) = map fst d
  /\ dict_values (_force_text_recursive (VDict d))
     = map _force_text_recursive (map snd d).
Proof.
  intros Hwf. simpl in Hwf. apply andb_true_iff in Hwf as [Hk _].
  rewrite force_text_recursive_dict by trivial. simpl.
  split; trivial. split.
  - apply map_value_keys.
  - now rewrite !map_map.
Qed.

Lemma force_text_recursive_keeps_keys_witness :
  dict_keys (_force_text_recursive
               (VDict [(ALazy "name", Leaf (ALazy "Too long."));
                       (AInt 7, VList [Leaf (AInt 1)]);
                       (ANone, None_)]))
  = [ALazy "name"; AInt 7; ANone]
  /\ dict_values (_force_text_recursive
                    (VDict [(ALazy "name", Leaf (ALazy "Too long."));
                            (AInt 7, VList [Leaf (AInt 1)]);
                            (ANone, None_)]))
     = [str "Too long."; VList [str "1"]; str "None"].
Proof.
  exact (proj2 (force_text_recursive_keeps_keys
                  [(ALazy "name", Leaf (ALazy "Too long."));
                   (AInt 7, VList [Leaf (AInt 1)]);
                   (ANone, None_)] eq_refl)).
Defined.

(** ** Error entries *)

(** C5: with REQUIRE_ERROR_CODES on, [build_error("x")] fails with the
    assertion error, whatever the builder; [build_error("x",
    "required")] returns the pair [("x", "required")] under the default
    builder, strict or not; and [build_error] of a list or of a dict
    fails with an assertion error under every configuration. *)
Theorem build_error_contract :
  (forall builder,
     build_error {| REQUIRE_ERROR_CODES := true; ERROR_BUILDER := builder |}
       (str "x") None_
     = Raise (AssertionError missing_error_code_message))
  /\ (forall strict,
        build_error {| REQUIRE_ERROR_CODES := strict;
                       ERROR_BUILDER := default_error_builder |}
          (str "x") (str "required")
        = Ok (VTuple [str "x"; str "required"]))
  /\ (forall settings l error_code,
        build_error settings (VList l) error_code
        = Raise (AssertionError not_single_message))
  /\ (forall settings d error_code,
        build_error settings (VDict d) error_code
        = Raise (AssertionError not_single_message)).
Proof.
  repeat split; trivial.
  intros []; reflexivity.
Qed.






(** ** MethodNotAllowed *)

(** C6: [MethodNotAllowed("POST")] has status 405 and the detail
    [Method "POST" not allowed.]; with no explicit detail the template
    is filled with the method; with an explicit detail that is not
    [None] the stored detail is the text of that detail, whatever the
    method. *)
Theorem method_not_allowed_detail :
  MethodNotAllowed.status_code = 405
  /\ MethodNotAllowed.__init__ (AStr "POST") ANone
     = Ok {| MethodNotAllowed.detail :=
               "Method " ++ dquote ++ "POST" ++ dquote ++ " not allowed." |}
  /\ (forall method,
        MethodNotAllowed.__init__ method ANone
        = Ok {| MethodNotAllowed.detail :=
                  "Method " ++ dquote ++ force_text method ++ dquote
                  ++ " not allowed." |})
  /\ (forall method detail,
        atom_is_None detail = false ->
        MethodNotAllowed.__init__ method detail
        = Ok {| MethodNotAllowed.detail := force_text detail |}).
Proof.
  split; [reflexivity|]. split; [reflexivity|]. split.
  - intros method. unfold MethodNotAllowed.__init__. simpl negb. cbv iota.
    now rewrite format_method.
  - intros method detail H. unfold MethodNotAllowed.__init__.
    now rewrite H.
Qed.

Lemma method_not_allowed_detail_witness :
  atom_is_None (ALazy "Read only.") = false
  /\ MethodNotAllowed.__init__ (AStr "POST") (ALazy "Read only.")
     = Ok {| MethodNotAllowed.detail := "Read only." |}.
Proof.
  split; [reflexivity|].
  exact (proj2 (proj2 (proj2 method_not_allowed_detail))
           (AStr "POST") (ALazy "Read only.") eq_refl).
Defined.

(** ** Throttled *)

Lemma throttled_with_wait (w : number) (detail : atom) :
  Throttled.__init__ (Some w) detail
  = (n <- math_ceil w ;;
     Ok {| Throttled.detail := throttled_base detail ++ " " ++ wait_clause n;
           Throttled.wait := Some n |}).
Proof.
  unfold Throttled.__init__. destruct (math_ceil w) as [n|e]; trivial.
  unfold bind. rewrite format_singular, format_plural.
  unfold ungettext, wait_clause, throttled_base.
  destruct (atom_is_None detail), (n =? 1); reflexivity.
Qed.

Lemma throttled_without_wait (detail : atom) :
  Throttled.__init__ None detail
  = Ok {| Throttled.detail := throttled_base detail; Throttled.wait := None |}.
Proof.
  unfold Throttled.__init__, throttled_base.
  now destruct (atom_is_None detail).
Qed.

(** C4, as the claim states it, fails: [Throttled(wait=1.4)] has
    [wait == 2], and its detail does not end in the singular
    ["in 2 second."]. *)
Lemma throttled_two_seconds_not_singular :
  exists e,
    Throttled.__init__ (Some (NFloat float_1_4)) ANone = Ok e
    /\ Throttled.wait e = Some 2
    /\ endswith (Throttled.detail e) "in 2 second." = false.
Proof. eexists. repeat split. Qed.

(** C4, amended: [Throttled(wait=1.4)] has [wait == 2] and a detail
    ending in the plural ["in 2 seconds."]; [Throttled(wait=30)] ends in
    ["in 30 seconds."]; [Throttled()] has no wait and the default
    message as its detail.  In general a wait is rounded up to the least
    integer not below it, the clause (singular only for a rounded wait
    of 1) is appended after a space when a wait is given, and nothing is
    appended when none is. *)
Theorem throttled_wait_clause :
  (exists e,
     Throttled.__init__ (Some (NFloat float_1_4)) ANone = Ok e
     /\ Throttled.wait e = Some 2
     /\ Throttled.detail e
        = "Request was throttled. Expected available in 2 seconds."
     /\ endswith (Throttled.detail e) "in 2 seconds." = true)
  /\ (exists e,
        Throttled.__init__ (Some (NInt 30)) ANone = Ok e
        /\ Throttled.wait e = Some 30
        /\ endswith (Throttled.detail e) "in 30 seconds." = true)
  /\ Throttled.__init__ None ANone
     = Ok {| Throttled.detail := "Request was throttled.";
             Throttled.wait := None |}
  /\ (forall w detail,
        Throttled.__init__ (Some w) detail
        = (n <- math_ceil w ;;
           Ok {| Throttled.detail :=
                   throttled_base detail ++ " " ++ wait_clause n;
                 Throttled.wait := Some n |}))
  /\ (forall detail,
        Throttled.__init__ None detail
        = Ok {| Throttled.detail := throttled_base detail;
                Throttled.wait := None |})
  /\ (forall z, math_ceil (NInt z) = Ok z)
  /\ (forall s m e,
        exists c,
          math_ceil (NFloat (S754_finite s m e)) = Ok c
          /\ is_ceiling (signed s m) e c).
Proof.
  split; [eexists; repeat split|].
  split; [eexists; repeat split|].
  split; [reflexivity|].
  split; [apply throttled_with_wait|].
  split; [apply throttled_without_wait|].
  split; [reflexivity|].
  intros s m e. eexists. split; [reflexivity|].
  apply ceil_scaled_is_ceiling.
Qed.

(** C9: with a wait that [math.ceil] rounds to [n] and an explicit
    detail that is not [None], the stored detail is the text of the
    explicit detail, a space, and the clause for [n]: the override
    replaces the default message only. *)
Theorem throttled_explicit_detail_keeps_clause (w : number) (n : Z)
  (detail : atom) :
  atom_is_None detail = false ->
  math_ceil w = Ok n ->
  Throttled.__init__ (Some w) detail
  = Ok {| Throttled.detail :=
            force_text detail ++ " Expected available in " ++ str_of_int n
            ++ (if n =? 1 then " second." else " seconds.");
          Throttled.wait := Some n |}.
Proof.
  intros Hd Hw. rewrite throttled_with_wait, Hw. unfold bind.
  unfold throttled_base, wait_clause. rewrite Hd. reflexivity.
Qed.

Lemma throttled_explicit_detail_keeps_clause_witness :
  atom_is_None (AStr "Slow down.") = false
  /\ math_ceil (NFloat float_1_4) = Ok 2
  /\ Throttled.__init__ (Some (NFloat float_1_4)) (AStr "Slow down.")
     = Ok {| Throttled.detail := "Slow down. Expected available in 2 seconds.";
             Throttled.wait := Some 2 |}.
Proof.
  split; [reflexivity|]. split; [reflexivity|].
  exact (throttled_explicit_detail_keeps_clause
           (NFloat float_1_4) 2 (AStr "Slow down.") eq_refl eq_refl).
Defined.

(** * Further properties of the module *)

(** ** What [dict(...)] builds *)

Section DictInvariant.
Context {V : Type}.
Implicit Types (d acc : list (atom * V)) (k : atom) (v : V).

Lemma dict_setitem_keys d k v :
  map fst (dict_setitem d k v)
  = if key_in k (map fst d) then map fst d else (map fst d ++ [k])%list.
Proof.
  induction d as [|[k' v'] d IH]; simpl; trivial.
  rewrite (key_eqb_sym k k').
  destruct (key_eqb k' k); simpl; trivial.
  rewrite IH. fold (key_in k (map fst d)).
  now destruct (key_in k (map fst d)).
Qed.

Lemma keys_unique_snoc (ks : list atom) k :
  keys_unique ks = true -> key_in k ks = false ->
  keys_unique (ks ++ [k]) = true.
Proof.
  induction ks as [|x ks IH]; simpl; intros Hu Hk; trivial.
  apply andb_true_iff in Hu as [Hx Hu].
  apply orb_false_elim in Hk as [Hkx Hk].
  rewrite IH by trivial. rewrite andb_true_r.
  unfold key_in in *. rewrite existsb_app. simpl.
  rewrite (key_eqb_sym x k), Hkx.
  apply negb_true_iff in Hx. now rewrite Hx.
Qed.

Lemma dict_setitem_unique d k v :
  keys_unique (map fst d) = true ->
  keys_unique (map fst (dict_setitem d k v)) = true.
Proof.
  intros Hu. rewrite dict_setitem_keys.
  destruct (key_in k (map fst d)) eqn:Hk; trivial.
  now apply keys_unique_snoc.
Qed.

Lemma dict_onto_unique (l : list (atom * V)) acc :
  keys_unique (map fst acc) = true ->
  keys_unique
    (map fst (fold_left (fun d kv => dict_setitem d (fst kv) (snd kv)) l acc))
  = true.
Proof.
  revert acc. induction l as [|[k v] l IH]; simpl; intros acc Hu; trivial.
  apply IH. now apply dict_setitem_unique.
Qed.

(** Whatever the pairs, the dict built from them has no two equal keys. *)
Lemma dict_unique (l : list (atom * V)) :
  keys_unique (map fst (dict l)) = true.
Proof. now apply dict_onto_unique. Qed.

Lemma dict_setitem_value d k v (x : atom * V) :
  In x (dict_setitem d k v) -> snd x = v \/ In x d.
Proof.
  induction d as [|[k' v'] d IH]; simpl.
  - intros [<-|[]]. now left.
  - destruct (key_eqb k' k); simpl.
    + intros [<-|H]; auto.
    + intros [<-|H]; auto. destruct (IH H); auto.
Qed.

Lemma dict_onto_value (l : list (atom * V)) acc (x : atom * V) :
  In x (fold_left (fun d kv => dict_setitem d (fst kv) (snd kv)) l acc) ->
  In x acc \/ exists y, In y l /\ snd x = snd y.
Proof.
  revert acc. induction l as [|y l IH]; simpl; intros acc H; auto.
  destruct (IH _ H) as [Hs|[z [Hz E]]].
  - destruct (dict_setitem_value _ _ _ _ Hs) as [E|Hacc]; auto.
    right. exists y. auto.
  - right. exists z. auto.
Qed.

(** Every value of the dict built from some pairs is the value of one
    of the pairs. *)
Lemma dict_value (l : list (atom * V)) (x : atom * V) :
  In x (dict l) -> exists y, In y l /\ snd x = snd y.
Proof.
  intros H. destruct (dict_onto_value l [] x H) as [[]|Hy]. exact Hy.
Qed.
End DictInvariant.

(** ** The normal form *)

(** The three facts about a normalised value, proved together: it is
    well formed, its leaves are plain strings, and normalising it again
    changes nothing. *)
Lemma force_text_recursive_normal (v : pyval) :
  wf (_force_text_recursive v) = true
  /\ all_text (_force_text_recursive v) = true
  /\ _force_text_recursive (_force_text_recursive v) = _force_text_recursive v.
Proof.
  induction v as [a|l IH|l IH|d IH] using pyval_forall_ind.
  - repeat split.
  - simpl. rewrite !forallb_forall, map_map. rewrite Forall_forall in IH.
    split; [|split].
    + intros y Hy. apply in_map_iff in Hy as [x [<- Hx]]. now apply IH.
    + intros y Hy. apply in_map_iff in Hy as [x [<- Hx]]. now apply IH.
    + f_equal. apply map_ext_in. intros x Hx. now apply IH.
  - simpl. rewrite !forallb_forall, map_map. rewrite Forall_forall in IH.
    split; [|split].
    + intros y Hy. apply in_map_iff in Hy as [x [<- Hx]]. now apply IH.
    + intros y Hy. apply in_map_iff in Hy as [x [<- Hx]]. now apply IH.
    + f_equal. apply map_ext_in. intros x Hx. now apply IH.
  - rewrite Forall_forall in IH.
    assert (Hfrom : forall y,
               In y (dict (map (fun kv => (fst kv, _force_text_recursive (snd kv))) d)) ->
               exists x, In x d /\ snd y = _force_text_recursive (snd x)).
    { intros y Hy. apply dict_value in Hy as [z [Hz E]].
      apply in_map_iff in Hz as [x [<- Hx]]. now exists x. }
    split; [|split].
    + simpl. rewrite dict_unique. simpl. apply forallb_forall.
      intros y Hy. destruct (Hfrom y Hy) as [x [Hx E]]. rewrite E.
      now apply IH.
    + simpl. apply forallb_forall.
      intros y Hy. destruct (Hfrom y Hy) as [x [Hx E]]. rewrite E.
      now apply IH.
    + change (_force_text_recursive (VDict d))
        with (VDict (dict (map (fun kv => (fst kv, _force_text_recursive (snd kv))) d))).
      rewrite force_text_recursive_dict by apply dict_unique.
      f_equal. rewrite <- (map_id (dict _)) at 2.
      apply map_ext_in. intros y Hy.
      destruct (Hfrom y Hy) as [x [Hx E]]. rewrite E.
      destruct (IH x Hx) as [_ [_ ->]]. rewrite <- E. now destruct y.
Qed.

Lemma force_text_recursive_idempotent_aux (v : pyval) :
  _force_text_recursive (_force_text_recursive v) = _force_text_recursive v.
Proof. apply force_text_recursive_normal. Qed.

(** X1: whatever the input, the normalised value holds no deferred
    text, [None] or number at any depth: every leaf is a plain string,
    and every dict in it has pairwise different keys. *)
Theorem force_text_recursive_plain_text (v : pyval) :
  all_text (_force_text_recursive v) = true
  /\ wf (_force_text_recursive v) = true.
Proof. destruct (force_text_recursive_normal v) as [Hw [Ht _]]. now split. Qed.

(** X2: normalising twice is the same as normalising once. *)
Theorem force_text_recursive_idempotent (v : pyval) :
  _force_text_recursive (_force_text_recursive v) = _force_text_recursive v.
Proof. apply force_text_recursive_normal. Qed.

(** ** What a constructed ValidationError holds *)

Lemma build_error_cases settings detail error_code :
  build_error settings detail error_code
  = if isinstance_list detail || isinstance_dict detail
    then Raise (AssertionError not_single_message)
    else if REQUIRE_ERROR_CODES settings && is_None error_code
         then Raise (AssertionError missing_error_code_message)
         else Ok (ERROR_BUILDER settings detail error_code).
Proof.
  unfold build_error.
  destruct detail; simpl; trivial;
    destruct (REQUIRE_ERROR_CODES settings); simpl; trivial;
    destruct (is_None error_code); reflexivity.
Qed.

(** The two ways a construction succeeds. *)
Lemma validation_error_success settings detail error_code e :
  ValidationError.__init__ settings detail error_code = Ok e ->
  ValidationError.error_code e = error_code
  /\ ((isinstance_list detail || isinstance_dict detail = true
       /\ ValidationError.detail e = _force_text_recursive detail)
      \/ (isinstance_list detail || isinstance_dict detail = false
          /\ ValidationError.detail e
             = VList [_force_text_recursive
                        (ERROR_BUILDER settings detail error_code)])).
Proof.
  intros H.
  destruct (isinstance_list detail || isinstance_dict detail) eqn:Hc.
  - rewrite validation_error_compound in H by trivial.
    destruct (REQUIRE_ERROR_CODES settings && negb (is_None error_code));
      [discriminate|].
    inversion H; subst; simpl. split; trivial. left. now split.
  - rewrite validation_error_single, build_error_cases, Hc in H by trivial.
    destruct (REQUIRE_ERROR_CODES settings && is_None error_code);
      [discriminate|].
    inversion H; subst; simpl. split; trivial. right. now split.
Qed.

Lemma force_text_recursive_compound (v : pyval) :
  isinstance_list v || isinstance_dict v = true ->
  isinstance_list (_force_text_recursive v)
  || isinstance_dict (_force_text_recursive v) = true.
Proof. destruct v; trivial. Qed.

(** X3: whenever the constructor succeeds, the stored detail is a list
    or a dict, never a bare message, and the [error_code] attribute is
    the argument as it was given. *)
Theorem validation_error_detail_is_compound settings detail error_code e :
  ValidationError.__init__ settings detail error_code = Ok e ->
  isinstance_list (ValidationError.detail e)
  || isinstance_dict (ValidationError.detail e) = true
  /\ ValidationError.error_code e = error_code.
Proof.
  intros H. apply validation_error_success in H as [Hc [[Hk ->]|[Hk ->]]].
  - split; trivial. now apply force_text_recursive_compound.
  - now split.
Qed.

Lemma validation_error_detail_is_compound_witness :
  ValidationError.__init__ strict_settings (VTuple [str "a"; str "b"])
    (str "invalid")
  = Ok {| ValidationError.detail :=
            VList [VTuple [VTuple [str "a"; str "b"]; str "invalid"]];
          ValidationError.error_code := str "invalid" |}
  /\ isinstance_list
       (VList [VTuple [VTuple [str "a"; str "b"]; str "invalid"]])
     || isinstance_dict
          (VList [VTuple [VTuple [str "a"; str "b"]; str "invalid"]]) = true.
Proof.
  split; [reflexivity|].
  exact (proj1 (validation_error_detail_is_compound strict_settings
                  (VTuple [str "a"; str "b"]) (str "invalid") _ eq_refl)).
Defined.

(** X4: the constructor fails only with an assertion error, and only
    under REQUIRE_ERROR_CODES: it succeeds exactly when strict checking
    is off, or the detail is a list or dict given without an error
    code, or the detail is a single message given with one. *)
Theorem validation_error_accepts settings detail error_code :
  ((exists e, ValidationError.__init__ settings detail error_code = Ok e)
   <-> (REQUIRE_ERROR_CODES settings = false
        \/ isinstance_list detail || isinstance_dict detail
           = is_None error_code))
  /\ ((exists e, ValidationError.__init__ settings detail error_code = Ok e)
      \/ (exists msg,
            ValidationError.__init__ settings detail error_code
            = Raise (AssertionError msg))).
Proof.
  destruct (isinstance_list detail || isinstance_dict detail) eqn:Hc.
  - rewrite validation_error_compound by trivial.
    destruct (REQUIRE_ERROR_CODES settings), (is_None error_code); simpl;
      (split; [split|]); eauto; try (intros [e H]; discriminate H);
      intros [H|H]; discriminate H.
  - rewrite validation_error_single, build_error_cases, Hc by trivial.
    destruct (REQUIRE_ERROR_CODES settings), (is_None error_code); simpl;
      (split; [split|]); eauto; try (intros [e H]; discriminate H);
      intros [H|H]; discriminate H.
Qed.

(** X5: the detail of a constructed ValidationError can be handed to the
    constructor again, under any configuration, with no error code: the
    construction succeeds and stores the very same detail. *)
Theorem validation_error_detail_reraised settings settings' detail
  error_code e :
  ValidationError.__init__ settings detail error_code = Ok e ->
  ValidationError.__init__ settings' (ValidationError.detail e) None_
  = Ok {| ValidationError.detail := ValidationError.detail e;
          ValidationError.error_code := None_ |}.
Proof.
  intros H. apply validation_error_success in H as [_ [[Hk ->]|[Hk ->]]].
  - rewrite validation_error_compound
      by now apply force_text_recursive_compound.
    rewrite force_text_recursive_idempotent_aux.
    now destruct (REQUIRE_ERROR_CODES settings').
  - rewrite validation_error_compound by trivial.
    simpl _force_text_recursive. rewrite force_text_recursive_idempotent_aux.
    now destruct (REQUIRE_ERROR_CODES settings').
Qed.

Lemma validation_error_detail_reraised_witness :
  ValidationError.__init__ lenient_settings (Leaf (ALazy "x")) None_
  = Ok {| ValidationError.detail := VList [VTuple [str "x"; str "None"]];
          ValidationError.error_code := None_ |}
  /\ ValidationError.__init__ strict_settings
       (VList [VTuple [str "x"; str "None"]]) None_
     = Ok {| ValidationError.detail := VList [VTuple [str "x"; str "None"]];
             ValidationError.error_code := None_ |}.
Proof.
  split; [reflexivity|].
  exact (validation_error_detail_reraised lenient_settings strict_settings
           (Leaf (ALazy "x")) None_ _ eq_refl).
Defined.

(** ** Field errors *)





(** ** Throttled and the wait it is given *)

(** X8: with a wait, the constructor fails only on the wait itself: an
    infinite wait raises OverflowError, a NaN raises ValueError, and for
    every other wait and every detail the construction succeeds, with
    an integer wait and the clause appended. *)
Theorem throttled_failures (w : number) (detail : atom) :
  match w with
  | NFloat (S754_infinity _) =>
      Throttled.__init__ (Some w) detail
      = Raise (OverflowError "cannot convert float infinity to integer")
  | NFloat S754_nan =>
      Throttled.__init__ (Some w) detail
      = Raise (ValueError "cannot convert float NaN to integer")
  | _ =>
      exists n,
        Throttled.__init__ (Some w) detail
        = Ok {| Throttled.detail :=
                  throttled_base detail ++ " " ++ wait_clause n;
                Throttled.wait := Some n |}
  end.
Proof.
  rewrite throttled_with_wait.
  destruct w as [z|[s|s| |s m e]]; simpl; trivial; eexists; reflexivity.
Qed.

Lemma is_ceiling_unique (n e c c' : Z) :
  is_ceiling n e c -> is_ceiling n e c' -> c = c'.
Proof.
  unfold is_ceiling. intros H H'.
  assert (Hp : 0 < 2 ^ Z.max 0 (- e)) by (apply Z.pow_pos_nonneg; lia).
  nia.
Qed.

Lemma in_first_second_ceiling (n e : Z) :
  in_first_second n e <-> ceil_scaled n e = 1.
Proof.
  split.
  - intros H. apply (is_ceiling_unique n e).
    + apply ceil_scaled_is_ceiling.
    + unfold in_first_second in H. unfold is_ceiling. lia.
  - intros H. pose proof (ceil_scaled_is_ceiling n e) as Hc.
    rewrite H in Hc. unfold in_first_second. unfold is_ceiling in Hc. lia.
Qed.

(** X9: the singular clause is chosen exactly for the waits that round
    up to one second: a float wait above 0 and at most 1, or the
    integer 1. *)
Theorem throttled_singular_clause (detail : atom) :
  (forall s m e,
     in_first_second (signed s m) e
     <-> Throttled.__init__ (Some (NFloat (S754_finite s m e))) detail
         = Ok {| Throttled.detail :=
                   throttled_base detail
                   ++ " Expected available in 1 second.";
                 Throttled.wait := Some 1 |})
  /\ (forall z,
        z = 1
        <-> Throttled.__init__ (Some (NInt z)) detail
            = Ok {| Throttled.detail :=
                      throttled_base detail
                      ++ " Expected available in 1 second.";
                    Throttled.wait := Some 1 |}).
Proof.
  split.
  - intros s m e. rewrite in_first_second_ceiling, throttled_with_wait.
    simpl math_ceil. fold (signed s m). unfold bind. split.
    + intros ->. reflexivity.
    + intros H. now inversion H.
  - intros z. rewrite throttled_with_wait. simpl. split.
    + intros ->. reflexivity.
    + intros H. now inversion H.
Qed.

(** ** The other constructors *)

Lemma format_media_type (v : string) :
  format (force_text UnsupportedMediaType.default_detail) [("media_type", v)]
  = Ok ("Unsupported media type " ++ dquote ++ v ++ dquote ++ " in request.").
Proof. reflexivity. Qed.

(** X10: [UnsupportedMediaType] never fails: with no explicit detail the
    stored detail is the template with the text of the media type put in
    as it is, braces included; with an explicit detail it is the text of
    that detail. *)
Theorem unsupported_media_type_detail (media_type detail : atom) :
  UnsupportedMediaType.__init__ media_type detail
  = Ok {| UnsupportedMediaType.detail :=
            if atom_is_None detail
            then "Unsupported media type " ++ dquote ++ force_text media_type
                 ++ dquote ++ " in request."
            else force_text detail |}.
Proof.
  unfold UnsupportedMediaType.__init__.
  destruct (atom_is_None detail); simpl negb; cbv iota.
  - now rewrite format_media_type.
  - reflexivity.
Qed.

(** X11: the constructors that a class defines for itself store, for an
    explicit detail, what the inherited constructor would store for that
    class; [NotAcceptable] and [Throttled] without a wait do so for a
    missing detail too, and [NotAcceptable] keeps the renderers it is
    given. *)
Theorem own_constructors_follow_inherited (detail : atom) :
  (forall (R : Type) (renderers : R),
     NotAcceptable.detail (NotAcceptable.__init__ detail renderers)
     = APIException__str__ (inherited__init__ NotAcceptable_class detail)
     /\ NotAcceptable.available_renderers
          (NotAcceptable.__init__ detail renderers) = renderers)
  /\ Throttled.__init__ None detail
     = Ok {| Throttled.detail :=
               APIException__str__ (inherited__init__ Throttled_class detail);
             Throttled.wait := None |}
  /\ (atom_is_None detail = false ->
      (forall method,
         MethodNotAllowed.__init__ method detail
         = Ok {| MethodNotAllowed.detail :=
                   APIException__str__
                     (inherited__init__ MethodNotAllowed_class detail) |})
      /\ (forall media_type,
            UnsupportedMediaType.__init__ media_type detail
            = Ok {| UnsupportedMediaType.detail :=
                      APIException__str__
                        (inherited__init__ UnsupportedMediaType_class
                           detail) |})).
Proof.
  split; [|split].
  - intros R renderers.
    unfold NotAcceptable.__init__, inherited__init__, APIException__str__.
    now destruct (atom_is_None detail).
  - unfold Throttled.__init__, inherited__init__, APIException__str__.
    now destruct (atom_is_None detail).
  - intros H. split; intros x.
    + unfold MethodNotAllowed.__init__, inherited__init__, APIException__str__.
      now rewrite H.
    + unfold UnsupportedMediaType.__init__, inherited__init__,
        APIException__str__.
      now rewrite H.
Qed.

Lemma own_constructors_follow_inherited_witness :
  atom_is_None (AInt 0) = false
  /\ MethodNotAllowed.__init__ (AStr "POST") (AInt 0)
     = Ok {| MethodNotAllowed.detail := "0" |}
  /\ UnsupportedMediaType.__init__ (AStr "text/csv") (AInt 0)
     = Ok {| UnsupportedMediaType.detail := "0" |}.
Proof.
  split; [reflexivity|]. split.
  - exact (proj1 (proj2 (proj2 (own_constructors_follow_inherited (AInt 0)))
                    eq_refl) (AStr "POST")).
  - exact (proj2 (proj2 (proj2 (own_constructors_follow_inherited (AInt 0)))
                    eq_refl) (AStr "text/csv")).
Defined.
